(** * jvmvj: a shallow embedding of the version resolution core of [src/main.rs]

    Rust [&str]/[String] values are modelled as Stdlib [string]s: an
    [ascii] value [c] stands for the Unicode scalar value
    U+0000..U+00FF numbered [nat_of_ascii c], so the model covers text
    made of Basic Latin and Latin-1 characters.  On that range the
    character classes used by the source ([char::is_alphabetic],
    [char::is_whitespace]) are written out exactly from Unicode's
    Alphabetic and White_Space properties.  Process effects (printing to
    stdout/stderr, [exit], [panic!]) are modelled by a small
    state-and-halt monad [M] over the two output streams. *)

From Stdlib Require Import String Ascii ZArith List Bool Lia.
From Stdlib Require Import Numbers.DecimalString.
Import ListNotations.
Open Scope string_scope.
Open Scope Z_scope.

(** ** String primitives of Rust's [str] *)

Module Str.

(** [char::is_alphabetic] on U+0000..U+00FF: A-Z, a-z, U+00AA, U+00B5,
    U+00BA, U+00C0..U+00D6, U+00D8..U+00F6 and U+00F8..U+00FF. *)
Definition is_alphabetic (c : ascii) : bool :=
  let n := nat_of_ascii c in
  ((65 <=? n)%nat && (n <=? 90)%nat) || ((97 <=? n)%nat && (n <=? 122)%nat)
  || (n =? 170)%nat || (n =? 181)%nat || (n =? 186)%nat
  || ((192 <=? n)%nat && (n <=? 214)%nat)
  || ((216 <=? n)%nat && (n <=? 246)%nat)
  || (248 <=? n)%nat.

(** [char::is_whitespace] on U+0000..U+00FF: tab, LF, VT, FF, CR, space,
    U+0085 (next line) and U+00A0 (no-break space). *)
Definition is_whitespace (c : ascii) : bool :=
  let n := nat_of_ascii c in
  ((9 <=? n)%nat && (n <=? 13)%nat) || (n =? 32)%nat
  || (n =? 133)%nat || (n =? 160)%nat.

Definition is_digit (c : ascii) : bool :=
  let n := nat_of_ascii c in (48 <=? n)%nat && (n <=? 57)%nat.

Definition digit_value (c : ascii) : Z := Z.of_nat (nat_of_ascii c) - 48.

(** [s.chars().take_while(p).collect::<String>()] *)
Fixpoint take_while (p : ascii -> bool) (s : string) : string :=
  match s with
  | EmptyString => EmptyString
  | String c t => if p c then String c (take_while p t) else EmptyString
  end.

(** [s.chars().skip_while(p).collect::<String>()] *)
Fixpoint skip_while (p : ascii -> bool) (s : string) : string :=
  match s with
  | EmptyString => EmptyString
  | String c t => if p c then skip_while p t else s
  end.

(** [s.split_once(c)] for a [char] pattern. *)
Fixpoint split_once (c : ascii) (s : string) : option (string * string) :=
  match s with
  | EmptyString => None
  | String x t =>
      if Ascii.eqb x c then Some (EmptyString, t)
      else match split_once c t with
           | Some (h, r) => Some (String x h, r)
           | None => None
           end
  end.

(** [s.starts_with(pat)] *)
Fixpoint starts_with (s pat : string) : bool :=
  match pat, s with
  | EmptyString, _ => true
  | String p pt, String c st => Ascii.eqb p c && starts_with st pt
  | String _ _, EmptyString => false
  end.

(** [hay.contains(needle)] for a [&str] needle. *)
Fixpoint contains (hay needle : string) : bool :=
  starts_with hay needle ||
  match hay with
  | EmptyString => false
  | String _ t => contains t needle
  end.

(** [s.trim()] = [s.trim_start().trim_end()] *)
Definition trim_start (s : string) : string := skip_while is_whitespace s.

Fixpoint drop_while_list (p : ascii -> bool) (l : list ascii) : list ascii :=
  match l with
  | [] => []
  | c :: t => if p c then drop_while_list p t else l
  end.

Definition trim_end (s : string) : string :=
  string_of_list_ascii
    (rev (drop_while_list is_whitespace (rev (list_ascii_of_string s)))).

Definition trim (s : string) : string := trim_end (trim_start s).

(** [s.lines()]: split after each '\n', drop one trailing "\r" of a
    terminated line, and yield no empty final line. *)
Definition nl : ascii := Ascii.ascii_of_nat 10.
Definition cr : ascii := Ascii.ascii_of_nat 13.

Definition strip_cr (l : list ascii) : list ascii :=
  match rev l with
  | c :: r => if Ascii.eqb c cr then rev r else l
  | [] => l
  end.

Fixpoint lines_go (cur : list ascii) (s : string) : list string :=
  match s with
  | EmptyString =>
      match cur with
      | [] => []
      | _ => [string_of_list_ascii (rev cur)]
      end
  | String c t =>
      if Ascii.eqb c nl
      then string_of_list_ascii (strip_cr (rev cur)) :: lines_go [] t
      else lines_go (c :: cur) t
  end.

Definition lines (s : string) : list string := lines_go [] s.

(** [s.replace(pat, to)]: every non-overlapping occurrence, left to right.
    [fuel] bounds the scan by the length of [s]; [pat] is non-empty at
    every use in this file. *)
Fixpoint replace_go (fuel : nat) (s pat to : string) : string :=
  match fuel with
  | O => s
  | S f =>
      match s with
      | EmptyString => EmptyString
      | String c t =>
          if (negb (String.eqb pat EmptyString)) && starts_with s pat
          then to ++ replace_go f (substring (String.length pat)
                                             (String.length s) s) pat to
          else String c (replace_go f t pat to)
      end
  end.

Definition replace (s pat to : string) : string :=
  replace_go (String.length s) s pat to.

(** [s.parse::<u16>()], via [u16::from_str_radix(s, 10)]: an optional
    leading '+', then a non-empty run of decimal digits, each step a
    [checked_mul] and a [checked_add] that fail past [u16::MAX]. *)
Definition u16_max : Z := 65535.

Fixpoint parse_digits (acc : Z) (s : string) : option Z :=
  match s with
  | EmptyString => Some acc
  | String c t =>
      if is_digit c then
        if u16_max <? acc * 10 then None
        else let r := acc * 10 + digit_value c in
             if u16_max <? r then None else parse_digits r t
      else None
  end.

Definition parse_u16 (s : string) : option Z :=
  match s with
  | EmptyString => None
  | String c t =>
      if Ascii.eqb c "+"%char then
        match t with
        | EmptyString => None
        | _ => parse_digits 0 t
        end
      else parse_digits 0 s
  end.

(** Decimal rendering used in the diagnostics ([{}] of an integer). *)
Definition show_Z (z : Z) : string := NilEmpty.string_of_int (Z.to_int z).

End Str.

Import Str.

(** ** Process effects *)

Record World := mkWorld { stdout : list string; stderr : list string }.

(** A computation either continues with a value or has ended the process
    with an exit status ([exit(code)], or 101 for a [panic!]). *)
Inductive Res (A : Type) : Type :=
| Cont (a : A)
| Halt (code : Z).
Arguments Cont {A} a.
Arguments Halt {A} code.

Definition M (A : Type) : Type := World -> Res A * World.

Definition ret {A} (a : A) : M A := fun w => (Cont a, w).

Definition bind {A B} (m : M A) (k : A -> M B) : M B :=
  fun w => match m w with
           | (Cont a, w') => k a w'
           | (Halt c, w') => (Halt c, w')
           end.

Notation "x <- m ;; k" := (bind m (fun x => k))
  (at level 61, m at next level, right associativity).
Notation "m ;; k" := (bind m (fun _ => k)) (at level 61, right associativity).

Definition println (s : string) : M unit :=
  fun w => (Cont tt, mkWorld (stdout w ++ [s]) (stderr w)).

Definition eprintln (s : string) : M unit :=
  fun w => (Cont tt, mkWorld (stdout w) (stderr w ++ [s])).

Definition exit {A} (code : Z) : M A := fun w => (Halt code, w).

(** [panic!(msg)] in the main thread: the process ends with status 101.
    Of what the default panic hook writes to stderr, the model records the
    payload [msg] only; the [thread 'main' panicked at <file:line:col>:]
    header before it and the [RUST_BACKTRACE] note after it are left out. *)
Definition panic {A} (msg : string) : M A := eprintln msg ;; exit 101.

(** [fn exit_with_err(msg, quiet) -> !] *)
Definition exit_with_err {A} (msg : string) (quiet : bool) : M A :=
  if quiet then exit 0 else (eprintln msg ;; exit 1).

(** ** Registry entries *)

Record Jvm := mkJvm {
  arch : string;
  bundle_id : string;
  enabled : bool;
  home_path : string;
  name : string;
  platform_version : string;
  vendor : string;
  version : string
}.

(** [Jvm::major_version]: each [unwrap_or_else] of the source calls
    [exit_with_err(msg, false)]; [major_version_of] yields the parsed
    number or the message of the failing step, and [major_version]
    performs the call. *)
Definition major_version_of (j : Jvm) : Z + string :=
  match split_once "." (version j) with
  | None =>
      inr ("Version number " ++ version j ++ " of jvm " ++ home_path j
           ++ " should contain at least one period!")
  | Some (mv, rest) =>
      let tok :=
        if String.eqb mv "1" then
          match split_once "." rest with
          | Some (h, _) => inl h
          | None =>
              inr ("Version number " ++ version j ++ " of jvm " ++ home_path j
                   ++ " should contain at least two periods when 1-prefixed!")
          end
        else inl mv in
      match tok with
      | inr msg => inr msg
      | inl major =>
          match parse_u16 major with
          | Some n => inl n
          | None =>
              inr ("Major version number " ++ major ++ " of JVM " ++ home_path j
                   ++ " should be numeric!")
          end
      end
  end.

Definition major_version (j : Jvm) : M Z :=
  match major_version_of j with
  | inl n => ret n
  | inr msg => exit_with_err msg false
  end.

(** ** Specifier parsing *)

(** [struct V { number: u16, distro: Option<String> }] *)
Record V := mkV { number : Z; distro : option string }.

(** [format!("{:?}", v)] for the derived [Debug] of [V].  The distribution
    comes from [get_distro], whose characters are all alphabetic, so the
    string's [Debug] form is the text between double quotes, with nothing
    to escape. *)
Definition dquote : string := String (ascii_of_nat 34) EmptyString.

Definition show_V (v : V) : string :=
  "V { number: " ++ show_Z (number v) ++ ", distro: "
  ++ match distro v with
     | None => "None"
     | Some d => "Some(" ++ dquote ++ d ++ dquote ++ ")"
     end
  ++ " }".

(** [fn get_distro] *)
Definition get_distro (spec : string) : option string :=
  let dspec := take_while is_alphabetic spec in
  if String.eqb dspec EmptyString then None else Some dspec.

Definition alpha_or_dash (c : ascii) : bool :=
  is_alphabetic c || Ascii.eqb c "-"%char.

(** [fn get_version_from_input]; note that the no-period arm parses the
    original [spec], not the stripped remainder. *)
Definition get_version_from_input (spec : string) : option V :=
  let d := get_distro spec in
  let num :=
    match split_once "." (skip_while alpha_or_dash spec) with
    | Some (h, ver) =>
        if String.eqb h "1" then parse_u16 ver else parse_u16 h
    | None => parse_u16 spec
    end in
  match num with
  | Some n => Some (mkV n d)
  | None => None
  end.

(** [fn distro_matches] *)
Definition distro_matches (v : V) (j : Jvm) : bool :=
  match distro v with
  | None => true
  | Some d => contains (bundle_id j) d || contains (home_path j) d
  end.

(** ** Resolution *)

(** [jvms.iter().find(|jvm| jvm.major_version() == v.number
                            && distro_matches(&v, jvm))]: the closure
    evaluates [major_version] first, so a malformed entry visited by the
    scan ends the process. *)
Fixpoint find_jvm (v : V) (jvms : list Jvm) : M (option Jvm) :=
  match jvms with
  | [] => ret None
  | j :: js =>
      n <- major_version j ;;
      if (n =? number v) && distro_matches v j then ret (Some j)
      else find_jvm v js
  end.

(** The [.find(..).unwrap_or_else(|| panic!(..))] expression of
    [switch_to]. *)
Definition resolve (v : V) (jvms : list Jvm) : M Jvm :=
  sel <- find_jvm v jvms ;;
  match sel with
  | Some j => ret j
  | None =>
      panic ("You requested a JVM of version " ++ show_V v
             ++ ", but no such JVM is installed!")
  end.

(** [fn switch_to(spec, jvms, quiet)]; [old_java_home] is the value of
    [env::var("JAVA_HOME").ok()]. *)
Definition switch_to (spec : string) (jvms : list Jvm) (quiet : bool)
    (old_java_home : option string) : M unit :=
  match get_version_from_input spec with
  | Some v =>
      selection <- resolve v jvms ;;
      println (home_path selection) ;;
      if negb quiet
         || (match old_java_home with None => true | Some _ => false end
             || negb (match old_java_home with
                      | Some o => String.eqb o (home_path selection)
                      | None => false
                      end))
      then eprintln ("Activating Java " ++ name selection)
      else ret tt
  | None =>
      if negb quiet then panic ("Did not understand version spec " ++ spec)
      else exit 0
  end.

(** ** Cascading lookup *)

(** An absolute directory as its components, nearest first: [/a/b/c] is
    [["c"; "b"; "a"]] and the root is [[]].  [dir.join(f)] is [f :: dir],
    [dir.parent()] drops the head. *)
Definition Dir := list string.

(** What a path names, as far as [fs::exists] and [fs::read_to_string] can
    tell.  An I/O error is carried as the text of its [Debug] form. *)
Inductive Entry :=
| Missing                      (** nothing there, or a dangling symlink *)
| TextFile (contents : string) (** a file whose bytes are valid UTF-8 *)
| NonUtf8File                  (** a file whose bytes are not valid UTF-8 *)
| DirEntry                     (** a directory *)
| Unreadable (err : string)    (** present, but opening or reading fails *)
| StatFails (err : string).    (** [metadata] fails other than [NotFound] *)

Definition FS := list string -> Entry.

(** [io::Error]s of [std] on Linux, in their [Debug] form. *)
Definition not_found_err : string :=
  "Os { code: 2, kind: NotFound, message: " ++ dquote
  ++ "No such file or directory" ++ dquote ++ " }".

Definition is_a_directory_err : string :=
  "Os { code: 21, kind: IsADirectory, message: " ++ dquote
  ++ "Is a directory" ++ dquote ++ " }".

Definition invalid_utf8_err : string :=
  "Error { kind: InvalidData, message: " ++ dquote
  ++ "stream did not contain valid UTF-8" ++ dquote ++ " }".

(** [fs::exists(path) -> io::Result<bool>]: [Ok(false)] on [NotFound]. *)
Definition fs_exists (fs : FS) (path : list string) : bool + string :=
  match fs path with
  | Missing => inl false
  | StatFails e => inr e
  | _ => inl true
  end.

(** [fs::read_to_string(path) -> io::Result<String>] *)
Definition read_to_string (fs : FS) (path : list string) : string + string :=
  match fs path with
  | TextFile c => inl c
  | Missing => inr not_found_err
  | NonUtf8File => inr invalid_utf8_err
  | DirEntry => inr is_a_directory_err
  | Unreadable e => inr e
  | StatFails e => inr e
  end.

(** The payload of the panic raised by [Result::unwrap] on [Err(e)]. *)
Definition unwrap_failed (e : string) : string :=
  "called `Result::unwrap()` on an `Err` value: " ++ e.

(** [Result::unwrap] *)
Definition unwrap {A} (r : A + string) : M A :=
  match r with
  | inl a => ret a
  | inr e => panic (unwrap_failed e)
  end.

Definition parent (d : Dir) : option Dir :=
  match d with
  | [] => None
  | _ :: p => Some p
  end.

(** [fn find_version_string_from_tool_versions(path)]; the [.ok()?] turns
    every read error into [None]. *)
Definition find_version_string_from_tool_versions (fs : FS) (path : list string)
    : option string :=
  match read_to_string fs path with
  | inr _ => None
  | inl contents =>
      match find (fun l => starts_with l "java") (map trim (lines contents)) with
      | Some java_line => Some (replace java_line "java " "")
      | None => None
      end
  end.

(** [fn find_version_string_from_file(dir, quiet)] *)
Fixpoint find_version_string_from_file (fs : FS) (dir : Dir) (quiet : bool)
    : M string :=
  let java_version_file := ".java-version" :: dir in
  let tool_version_file := ".tool-versions" :: dir in
  b <- unwrap (fs_exists fs java_version_file) ;;
  if b then
    contents <- unwrap (read_to_string fs java_version_file) ;;
    ret (trim contents)
  else
    match find_version_string_from_tool_versions fs tool_version_file with
    | Some spec => ret spec
    | None =>
        match dir with
        | _ :: p => find_version_string_from_file fs p quiet
        | [] =>
            exit_with_err
              "No .java_version file found in this directory or any parent!"
              quiet
        end
    end.

(** ** The two resolving entry points of [main] *)

(** [main]'s dispatch on its arguments; listing and shell-init output are
    outside the resolution core. *)
Inductive Mode := ListAll | Init | Auto (quiet : bool) | Explicit (spec : string).

Definition mode_of_args (args : list string) : Mode :=
  match nth_error args 1 with
  | None => ListAll
  | Some cmd =>
      if String.eqb cmd "init" then Init
      else if String.eqb cmd "auto" then
        Auto (existsb (fun a => String.eqb a "-q" || String.eqb a "--quiet") args)
      else Explicit cmd
  end.

(** The [auto] arm: [here] is the canonicalized current directory. *)
Definition run_auto (fs : FS) (here : Dir) (jvms : list Jvm) (quiet : bool)
    (java_home : option string) : M unit :=
  spec <- find_version_string_from_file fs here quiet ;;
  switch_to spec jvms quiet java_home.

(** The explicit-specifier arm: [switch_to(spec, &jvms, false)]. *)
Definition run_explicit (spec : string) (jvms : list Jvm)
    (java_home : option string) : M unit :=
  switch_to spec jvms false java_home.

(** Exit status of a run of [main] that returns normally is 0. *)
Definition exit_status (r : Res unit) : Z :=
  match r with Cont _ => 0 | Halt c => c end.

(** ** Reading of the claims: decimal tokens, substrings, ancestors *)

Fixpoint all_digits (s : string) : bool :=
  match s with
  | EmptyString => true
  | String c t => is_digit c && all_digits t
  end.

Fixpoint digits_value_from (acc : Z) (s : string) : Z :=
  match s with
  | EmptyString => acc
  | String c t => digits_value_from (acc * 10 + digit_value c) t
  end.

(** The non-negative integer denoted by a string of decimal digits. *)
Definition digits_value (s : string) : Z := digits_value_from 0 s.

Definition is_substring (needle hay : string) : Prop :=
  exists p r, hay = p ++ needle ++ r.

(** The query/runtime compatibility of the claims: same normalized major
    version, and the distribution constraint absent or a substring of the
    bundle identifier or of the install path. *)
Definition runtime_matches (v : V) (j : Jvm) : Prop :=
  major_version_of j = inl (number v) /\
  (distro v = None \/
   exists d, distro v = Some d /\
             (is_substring d (bundle_id j) \/ is_substring d (home_path j))).

(** A runtime with a well-formed version that does not match. *)
Definition wf_nonmatch (v : V) (j : Jvm) : Prop :=
  (exists n, major_version_of j = inl n) /\ ~ runtime_matches v j.

Definition no_match_msg (v : V) : string :=
  "You requested a JVM of version " ++ show_V v
  ++ ", but no such JVM is installed!".

Definition eprinted (w : World) (msg : string) : World :=
  mkWorld (stdout w) (stderr w ++ [msg]).

(** The directories the cascading lookup visits, nearest first. *)
Fixpoint ancestors (d : Dir) : list Dir :=
  d :: match d with [] => [] | _ :: p => ancestors p end.

(** What a single directory decides, read from the entries at its two
    config paths: a specifier, a fatal error (the payload of a panic), or
    nothing, in which case the search goes on upwards. *)
Inductive Level := Declared (spec : string) | Fatal (msg : string) | Undeclared.

(** The specifier a readable secondary file declares. *)
Definition tool_versions_decl (c : string) : option string :=
  match find (fun l => starts_with l "java") (map trim (lines c)) with
  | Some l => Some (replace l "java " "")
  | None => None
  end.

Definition level_outcome (fs : FS) (d : Dir) : Level :=
  match fs (".java-version" :: d) with
  | TextFile c => Declared (trim c)
  | Missing =>
      match fs (".tool-versions" :: d) with
      | TextFile c =>
          match tool_versions_decl c with
          | Some s => Declared s
          | None => Undeclared
          end
      | _ => Undeclared
      end
  | NonUtf8File => Fatal (unwrap_failed invalid_utf8_err)
  | DirEntry => Fatal (unwrap_failed is_a_directory_err)
  | Unreadable e => Fatal (unwrap_failed e)
  | StatFails e => Fatal (unwrap_failed e)
  end.

(** The first directory, nearest first, that decides something. *)
Fixpoint first_decided (l : list Level) : Level :=
  match l with
  | [] => Undeclared
  | Undeclared :: t => first_decided t
  | x :: _ => x
  end.

Definition no_config_msg : string :=
  "No .java_version file found in this directory or any parent!".

(** ** Helper lemmas *)

Lemma is_digit_bounds c : is_digit c = true -> 0 <= digit_value c <= 9.
Proof.
  unfold is_digit, digit_value. intros H.
  apply andb_prop in H as [H1 H2].
  apply Nat.leb_le in H1. apply Nat.leb_le in H2. lia.
Qed.

Lemma digits_value_from_ge s acc :
  0 <= acc -> all_digits s = true -> acc <= digits_value_from acc s.
Proof.
  revert acc; induction s as [|c t IH]; intros acc Hacc H; simpl in *; [lia|].
  apply andb_prop in H as [Hc Ht].
  pose proof (is_digit_bounds c Hc).
  specialize (IH (acc * 10 + digit_value c) ltac:(lia) Ht). lia.
Qed.

Lemma parse_digits_spec s acc :
  all_digits s = true -> 0 <= acc <= u16_max ->
  parse_digits acc s =
  if digits_value_from acc s <=? u16_max then Some (digits_value_from acc s)
  else None.
Proof.
  revert acc; induction s as [|c t IH]; intros acc H Hacc; simpl in *.
  - destruct (Z.leb_spec acc u16_max); [reflexivity | lia].
  - apply andb_prop in H as [Hc Ht]. rewrite Hc.
    pose proof (is_digit_bounds c Hc).
    pose proof (digits_value_from_ge t (acc * 10 + digit_value c) ltac:(lia) Ht).
    destruct (Z.ltb_spec u16_max (acc * 10)).
    + destruct (Z.leb_spec (digits_value_from (acc * 10 + digit_value c) t) u16_max);
        [lia | reflexivity].
    + destruct (Z.ltb_spec u16_max (acc * 10 + digit_value c)).
      * destruct (Z.leb_spec (digits_value_from (acc * 10 + digit_value c) t) u16_max);
          [lia | reflexivity].
      * apply IH; [exact Ht | lia].
Qed.

Lemma is_digit_not_plus c : is_digit c = true -> Ascii.eqb c "+"%char = false.
Proof.
  intros H. destruct (Ascii.eqb_spec c "+"%char); [subst; discriminate | reflexivity].
Qed.

(** [parse::<u16>] on a decimal token: its value, when it fits. *)
Lemma parse_u16_digits s :
  all_digits s = true -> s <> EmptyString ->
  parse_u16 s = if digits_value s <=? u16_max then Some (digits_value s) else None.
Proof.
  intros H Hne. destruct s as [|c t]; [congruence|].
  unfold parse_u16. pose proof H as H'. simpl in H'.
  apply andb_prop in H' as [Hc _]. rewrite (is_digit_not_plus c Hc).
  apply parse_digits_spec; [exact H | unfold u16_max; lia].
Qed.

Lemma parse_u16_overflow s :
  all_digits s = true -> u16_max < digits_value s -> parse_u16 s = None.
Proof.
  intros H Hv. destruct s as [|c t]; [unfold digits_value in Hv; simpl in Hv;
    unfold u16_max in Hv; lia|].
  rewrite parse_u16_digits by (assumption || discriminate).
  destruct (Z.leb_spec (digits_value (String c t)) u16_max); [lia | reflexivity].
Qed.

Lemma split_once_app c h t :
  split_once c h = None -> split_once c (h ++ String c t) = Some (h, t).
Proof.
  induction h as [|x h IH]; simpl; intros H.
  - rewrite Ascii.eqb_refl. reflexivity.
  - destruct (Ascii.eqb x c); [discriminate|].
    destruct (split_once c h) as [[? ?]|]; [discriminate|].
    rewrite IH by reflexivity. reflexivity.
Qed.

Lemma all_digits_no_dot s : all_digits s = true -> split_once "." s = None.
Proof.
  induction s as [|c t IH]; simpl; intros H; [reflexivity|].
  apply andb_prop in H as [Hc Ht].
  destruct (Ascii.eqb_spec c "."%char); [subst; discriminate|].
  rewrite IH by exact Ht. reflexivity.
Qed.

(** No digit is alphabetic, checked over the whole character range. *)
Lemma is_digit_not_alphabetic c : is_digit c = true -> is_alphabetic c = false.
Proof.
  destruct c as [[] [] [] [] [] [] [] []]; vm_compute;
    first [reflexivity | discriminate].
Qed.

Lemma all_digits_skip s : all_digits s = true -> skip_while alpha_or_dash s = s.
Proof.
  destruct s as [|c t]; simpl; intros H; [reflexivity|].
  apply andb_prop in H as [Hc _].
  destruct (alpha_or_dash c) eqn:E; [|reflexivity].
  exfalso. revert E. unfold alpha_or_dash.
  rewrite (is_digit_not_alphabetic c Hc).
  destruct (Ascii.eqb_spec c "-"%char); [subst; discriminate|].
  discriminate.
Qed.

Lemma starts_with_spec s pat :
  starts_with s pat = true <-> exists r, s = pat ++ r.
Proof.
  revert s; induction pat as [|p pt IH]; intros s; simpl.
  - split; [eauto | destruct s; reflexivity].
  - destruct s as [|c st]; split.
    + discriminate.
    + intros [r Hr]; discriminate.
    + intros H. apply andb_prop in H as [Hp Ht].
      apply Ascii.eqb_eq in Hp; subst.
      apply IH in Ht as [r ->]. eauto.
    + intros [r Hr]. injection Hr as -> Hr. simpl.
      rewrite Ascii.eqb_refl. apply IH. eauto.
Qed.

Lemma contains_unfold hay d :
  contains hay d =
  starts_with hay d || match hay with
                       | EmptyString => false
                       | String _ t => contains t d
                       end.
Proof. destruct hay; reflexivity. Qed.

(** [str::contains] is the substring relation. *)
Lemma contains_spec hay d : contains hay d = true <-> is_substring d hay.
Proof.
  unfold is_substring. induction hay as [|c t IH]; rewrite contains_unfold.
  - rewrite orb_false_r, starts_with_spec. split.
    + intros [r Hr]. exists EmptyString, r. exact Hr.
    + intros [p [r Hr]]. destruct p; [|discriminate]. eauto.
  - rewrite orb_true_iff, starts_with_spec, IH. split.
    + intros [[r Hr] | [p [r Hr]]].
      * exists EmptyString, r. exact Hr.
      * exists (String c p), r. simpl. rewrite Hr. reflexivity.
    + intros [p [r Hr]]. destruct p as [|x p].
      * left. eauto.
      * right. injection Hr as _ Hr. eauto.
Qed.

Lemma distro_matches_spec v j :
  distro_matches v j = true <->
  (distro v = None \/
   exists d, distro v = Some d /\
             (is_substring d (bundle_id j) \/ is_substring d (home_path j))).
Proof.
  unfold distro_matches. destruct (distro v) as [d|].
  - rewrite orb_true_iff, !contains_spec. split.
    + intros H. right. eauto.
    + intros [H|[d' [H H']]]; [discriminate|]. injection H as ->. exact H'.
  - split; auto.
Qed.

Lemma runtime_matches_iff v j :
  runtime_matches v j <->
  major_version_of j = inl (number v) /\ distro_matches v j = true.
Proof. unfold runtime_matches. rewrite distro_matches_spec. tauto. Qed.

Lemma find_jvm_cons_ok v j js n w :
  major_version_of j = inl n ->
  find_jvm v (j :: js) w =
  if (n =? number v) && distro_matches v j then (Cont (Some j), w)
  else find_jvm v js w.
Proof.
  intros H. simpl. unfold bind, major_version. rewrite H. unfold ret.
  destruct ((n =? number v) && distro_matches v j); reflexivity.
Qed.

Lemma find_jvm_cons_err v j js msg w :
  major_version_of j = inr msg ->
  find_jvm v (j :: js) w = (Halt 1, eprinted w msg).
Proof.
  intros H. simpl. unfold bind, major_version. rewrite H. reflexivity.
Qed.

Lemma find_jvm_skip v pre rest w :
  Forall (wf_nonmatch v) pre -> find_jvm v (pre ++ rest) w = find_jvm v rest w.
Proof.
  induction 1 as [|p pre [[n Hn] Hnm] _ IH]; [reflexivity|].
  simpl app. rewrite (find_jvm_cons_ok v p (pre ++ rest) n w Hn).
  destruct ((n =? number v) && distro_matches v p) eqn:E; [|exact IH].
  exfalso. apply Hnm, runtime_matches_iff.
  apply andb_prop in E as [E1 E2]. apply Z.eqb_eq in E1. subst. auto.
Qed.

(** One step of [find_version_string_from_file]: the directory's own
    outcome, or the parent's lookup when it decides nothing. *)
Lemma find_version_string_from_file_step fs d q w :
  find_version_string_from_file fs d q w =
  match level_outcome fs d with
  | Declared s => (Cont s, w)
  | Fatal m => panic m w
  | Undeclared =>
      match d with
      | _ :: p => find_version_string_from_file fs p q w
      | [] => exit_with_err no_config_msg q w
      end
  end.
Proof.
  destruct d as [|x p]; cbn [find_version_string_from_file];
    unfold level_outcome, find_version_string_from_tool_versions,
      tool_versions_decl, bind, unwrap, fs_exists, read_to_string;
    destruct (fs (".java-version" :: _)); try reflexivity;
    destruct (fs (".tool-versions" :: _)); try reflexivity;
    match goal with |- context [find ?f ?l] => destruct (find f l) end;
    reflexivity.
Qed.

(** The upward walk of [find_version_string_from_file]: the first
    directory, nearest first, that decides something decides. *)
Lemma find_version_string_from_file_locate fs d q w :
  find_version_string_from_file fs d q w =
  match first_decided (map (level_outcome fs) (ancestors d)) with
  | Declared s => (Cont s, w)
  | Fatal m => panic m w
  | Undeclared => exit_with_err no_config_msg q w
  end.
Proof.
  induction d as [|x p IH]; rewrite find_version_string_from_file_step;
    cbn [ancestors map first_decided];
    destruct (level_outcome fs _); reflexivity || exact IH.
Qed.

Lemma major_version_of_msg j msg :
  major_version_of j = inr msg -> msg <> EmptyString.
Proof.
  unfold major_version_of.
  destruct (split_once "." (version j)) as [[mv rest]|].
  - destruct (String.eqb mv "1").
    + destruct (split_once "." rest) as [[h _]|].
      * destruct (parse_u16 h); [discriminate|].
        intros H; injection H as <-; discriminate.
      * intros H; injection H as <-; discriminate.
    + destruct (parse_u16 mv); [discriminate|].
      intros H; injection H as <-; discriminate.
  - intros H; injection H as <-; discriminate.
Qed.

(** A registry entry with the given version, install path and bundle id. *)
Definition sample_jvm (ver home bid : string) : Jvm :=
  mkJvm "arm64" bid true home ("JDK " ++ ver) ver "Vendor" ver.

Definition w0 : World := mkWorld [] [].

(** ** Resolver (C1) *)

(** C1 (amended).  The resolver scans the registry in order.  It returns
    the first runtime whose normalized major version equals the query's
    number and whose distribution constraint (if any) is a substring of its
    bundle id or install path, provided every runtime before it has a
    well-formed version; a malformed version met before any match ends the
    process with MalformedVersion (status 1, its message on stderr); when
    no runtime matches and all are well-formed, it fails with
    NoMatchingRuntime (a panic, status 101). *)
Theorem resolve_first_match (v : V) (jvms : list Jvm) (w : World) :
  (forall pre j post, jvms = (pre ++ j :: post)%list ->
     Forall (wf_nonmatch v) pre -> runtime_matches v j ->
     resolve v jvms w = (Cont j, w)) /\
  (forall pre j post msg, jvms = (pre ++ j :: post)%list ->
     Forall (wf_nonmatch v) pre -> major_version_of j = inr msg ->
     resolve v jvms w = (Halt 1, eprinted w msg)) /\
  (Forall (wf_nonmatch v) jvms ->
     resolve v jvms w = (Halt 101, eprinted w (no_match_msg v))).
Proof.
  unfold resolve, bind. split; [|split].
  - intros pre j post -> Hpre Hm.
    apply runtime_matches_iff in Hm as [Hn Hd].
    rewrite find_jvm_skip by exact Hpre.
    rewrite (find_jvm_cons_ok v j post (number v) w Hn), Z.eqb_refl, Hd.
    reflexivity.
  - intros pre j post msg -> Hpre Hm.
    rewrite find_jvm_skip by exact Hpre.
    rewrite (find_jvm_cons_err v j post msg w Hm). reflexivity.
  - intros Hall.
    rewrite <- (app_nil_r jvms), find_jvm_skip by exact Hall.
    reflexivity.
Qed.

Lemma resolve_first_match_witness :
  let v := mkV 17 (Some "jdk17") in
  let j21 := sample_jvm "21.0.1" "/jvm/jdk21" "net.java.jdk21" in
  let j17 := sample_jvm "17.0.9" "/jvm/jdk17" "net.java.jdk17" in
  Forall (wf_nonmatch v) [j21] /\ runtime_matches v j17 /\
  resolve v [j21; j17] w0 = (Cont j17, w0).
Proof.
  intros v j21 j17.
  assert (Hpre : Forall (wf_nonmatch v) [j21]).
  { constructor; [|constructor]. split.
    - exists 21. reflexivity.
    - intros [H _]. discriminate H. }
  assert (Hm : runtime_matches v j17).
  { split; [reflexivity|]. right. exists "jdk17". split; [reflexivity|].
    right. exists "/jvm/", EmptyString. reflexivity. }
  split; [exact Hpre|]. split; [exact Hm|].
  exact (proj1 (resolve_first_match v [j21; j17] w0) [j21] j17 [] eq_refl Hpre Hm).
Defined.

(** C1 counterexample: with a malformed entry ahead of the only matching
    one, the resolver does not return the matching runtime but ends the
    process with status 1. *)
Lemma resolve_malformed_ahead_counterexample :
  let v := mkV 17 None in
  let bad := sample_jvm "17" "/jvm/odd" "org.odd" in
  let good := sample_jvm "17.0.1" "/jvm/jdk17" "net.java.jdk17" in
  runtime_matches v good /\ ~ runtime_matches v bad /\
  fst (resolve v [bad; good] w0) = Halt 1 /\
  resolve v [bad; good] w0 <> (Cont good, w0).
Proof.
  intros v bad good.
  split; [split; [reflexivity | left; reflexivity]|].
  split; [intros [H _]; discriminate H|].
  split; [reflexivity | discriminate].
Qed.

(** ** Specifier parser (C3, C4) *)

(** C3.  "17", "1.8" and "11.0.2" parse with no distribution to versions
    17, 8 and 11; whenever the stripped remainder of a specifier has a
    period, the version is the text after the first period if the part
    before it is "1", and otherwise the part before it. *)
Theorem get_version_from_input_shapes :
  get_version_from_input "17" = Some (mkV 17 None) /\
  get_version_from_input "1.8" = Some (mkV 8 None) /\
  get_version_from_input "11.0.2" = Some (mkV 11 None) /\
  (forall spec h t,
     skip_while alpha_or_dash spec = h ++ "." ++ t ->
     split_once "." h = None ->
     get_version_from_input spec =
     match parse_u16 (if String.eqb h "1" then t else h) with
     | Some n => Some (mkV n (get_distro spec))
     | None => None
     end).
Proof.
  split; [reflexivity|]. split; [reflexivity|]. split; [reflexivity|].
  intros spec h t Hr Hh. unfold get_version_from_input.
  rewrite Hr. replace ("." ++ t) with (String "." t) by reflexivity.
  rewrite (split_once_app "." h t Hh).
  destruct (String.eqb h "1"); reflexivity.
Qed.

Lemma get_version_from_input_shapes_witness :
  skip_while alpha_or_dash "temurin-1.8" = "1" ++ "." ++ "8" /\
  split_once "." "1" = None /\
  get_version_from_input "temurin-1.8" = Some (mkV 8 (Some "temurin")).
Proof.
  split; [reflexivity|]. split; [reflexivity|].
  rewrite (proj2 (proj2 (proj2 get_version_from_input_shapes))
             "temurin-1.8" "1" "8" eq_refl eq_refl).
  reflexivity.
Defined.

(** C4 (code bug).  "temurin-17" yields the distribution "temurin", but its
    remainder "17" has no period, so the code parses the whole original
    specifier as a number and produces no query. *)
Theorem temurin_17_unparsed :
  get_distro "temurin-17" = Some "temurin" /\
  skip_while alpha_or_dash "temurin-17" = "17" /\
  get_version_from_input "temurin-17" = None /\
  (forall old w,
     switch_to "temurin-17" [sample_jvm "17.0.9" "/jvm/temurin-17" "net.temurin.17"]
       false old w
     = (Halt 101, eprinted w "Did not understand version spec temurin-17")).
Proof.
  split; [reflexivity|]. split; [reflexivity|]. split; [reflexivity|].
  intros old w. reflexivity.
Qed.

(** ** Version-string normalizer (C5, C6, C10) *)

Lemma major_version_of_plain j h t :
  version j = h ++ "." ++ t -> all_digits h = true -> h <> "1" ->
  major_version_of j =
  match parse_u16 h with
  | Some n => inl n
  | None => inr ("Major version number " ++ h ++ " of JVM " ++ home_path j
                 ++ " should be numeric!")
  end.
Proof.
  intros Hv Hd H1. unfold major_version_of. rewrite Hv.
  replace ("." ++ t) with (String "." t) by reflexivity.
  rewrite (split_once_app "." h t (all_digits_no_dot h Hd)).
  apply String.eqb_neq in H1. rewrite H1. reflexivity.
Qed.

Lemma major_version_of_legacy j m p :
  version j = "1." ++ m ++ "." ++ p -> all_digits m = true ->
  major_version_of j =
  match parse_u16 m with
  | Some n => inl n
  | None => inr ("Major version number " ++ m ++ " of JVM " ++ home_path j
                 ++ " should be numeric!")
  end.
Proof.
  intros Hv Hd. unfold major_version_of. rewrite Hv.
  replace ("1." ++ m ++ "." ++ p) with ("1" ++ String "." (m ++ String "." p))
    by reflexivity.
  rewrite (split_once_app "." "1" _ eq_refl). simpl String.eqb.
  rewrite (split_once_app "." m p (all_digits_no_dot m Hd)). reflexivity.
Qed.

(** C5 (amended).  A raw version "<h>.<rest>" with a numeric head other
    than "1" normalizes to the integer <h>, and a legacy "1.<minor>.<patch>"
    normalizes to <minor>, whenever that integer fits in 16 bits (at most
    65535); a version with no period fails with MalformedVersion: the
    process ends with status 1 and the message on stderr. *)
Theorem major_version_normalizes (j : Jvm) :
  (forall h t, version j = h ++ "." ++ t -> all_digits h = true ->
     h <> EmptyString -> h <> "1" -> digits_value h <= u16_max ->
     major_version_of j = inl (digits_value h)) /\
  (forall m p, version j = "1." ++ m ++ "." ++ p -> all_digits m = true ->
     m <> EmptyString -> digits_value m <= u16_max ->
     major_version_of j = inl (digits_value m)) /\
  (split_once "." (version j) = None ->
     exists msg, major_version_of j = inr msg /\
       forall w, major_version j w = (Halt 1, eprinted w msg)).
Proof.
  split; [|split].
  - intros h t Hv Hd Hne H1 Hb.
    rewrite (major_version_of_plain j h t Hv Hd H1), parse_u16_digits by assumption.
    apply Z.leb_le in Hb. rewrite Hb. reflexivity.
  - intros m p Hv Hd Hne Hb.
    rewrite (major_version_of_legacy j m p Hv Hd), parse_u16_digits by assumption.
    apply Z.leb_le in Hb. rewrite Hb. reflexivity.
  - intros Hs. unfold major_version, major_version_of. rewrite Hs.
    eexists. split; [reflexivity|]. intros w. reflexivity.
Qed.

Lemma major_version_normalizes_witness :
  major_version_of (sample_jvm "17.0.9" "/jvm/a" "a") = inl 17 /\
  major_version_of (sample_jvm "1.8.0_392" "/jvm/b" "b") = inl 8 /\
  (exists msg, major_version_of (sample_jvm "17" "/jvm/c" "c") = inr msg).
Proof.
  split; [|split].
  - apply (proj1 (major_version_normalizes (sample_jvm "17.0.9" "/jvm/a" "a"))
             "17" "0.9");
      first [reflexivity | discriminate | (vm_compute; discriminate)].
  - apply (proj1 (proj2 (major_version_normalizes (sample_jvm "1.8.0_392" "/jvm/b" "b")))
             "8" "0_392");
      first [reflexivity | discriminate | (vm_compute; discriminate)].
  - destruct (proj2 (proj2 (major_version_normalizes (sample_jvm "17" "/jvm/c" "c")))
                eq_refl) as [msg [Hm _]].
    exists msg. exact Hm.
Defined.

(** C5 counterexample: "70000.0" begins with a numeric component other
    than "1" followed by a period, yet it does not normalize to 70000: the
    component exceeds [u16::MAX] and normalization fails. *)
Lemma major_version_70000_counterexample :
  let j := sample_jvm "70000.0" "/jvm/big" "big" in
  all_digits "70000" = true /\ version j = "70000" ++ "." ++ "0" /\
  major_version_of j
  = inr "Major version number 70000 of JVM /jvm/big should be numeric!" /\
  major_version_of j <> inl 70000.
Proof.
  intros j. split; [reflexivity|]. split; [reflexivity|].
  split; [reflexivity | discriminate].
Qed.

Lemma bind_halt {A B} (m : M A) (k : A -> M B) w c w' :
  m w = (Halt c, w') -> bind m k w = (Halt c, w').
Proof. intros H. unfold bind. rewrite H. reflexivity. Qed.

Lemma bind_cont {A B} (m : M A) (k : A -> M B) w a w' :
  m w = (Cont a, w') -> bind m k w = k a w'.
Proof. intros H. unfold bind. rewrite H. reflexivity. Qed.

Lemma resolve_reaches_malformed v pre j post msg w :
  Forall (wf_nonmatch v) pre -> major_version_of j = inr msg ->
  resolve v (pre ++ j :: post)%list w = (Halt 1, eprinted w msg).
Proof.
  intros Hpre Hm. unfold resolve. apply bind_halt.
  rewrite find_jvm_skip by exact Hpre. apply find_jvm_cons_err. exact Hm.
Qed.

(** C6.  When the scan of the registry reaches a runtime whose version is
    malformed, the invocation ends with status 1 and a non-empty diagnostic
    on stderr, whatever the quiet flag, on the explicit path and on the
    [auto] path alike. *)
Theorem malformed_version_fatal spec jvms quiet old w v pre j post msg :
  get_version_from_input spec = Some v ->
  jvms = (pre ++ j :: post)%list ->
  Forall (wf_nonmatch v) pre ->
  major_version_of j = inr msg ->
  msg <> EmptyString /\
  switch_to spec jvms quiet old w = (Halt 1, eprinted w msg) /\
  run_explicit spec jvms old w = (Halt 1, eprinted w msg) /\
  (forall fs here w0',
     find_version_string_from_file fs here quiet w0' = (Cont spec, w) ->
     run_auto fs here jvms quiet old w0' = (Halt 1, eprinted w msg)).
Proof.
  intros Hv -> Hpre Hm.
  assert (Hsw : forall q, switch_to spec (pre ++ j :: post)%list q old w
                          = (Halt 1, eprinted w msg)).
  { intros q. unfold switch_to. rewrite Hv. apply bind_halt.
    apply resolve_reaches_malformed; assumption. }
  split; [exact (major_version_of_msg j msg Hm)|].
  split; [apply Hsw|]. split; [apply Hsw|].
  intros fs here w0' Hl. unfold run_auto. rewrite (bind_cont _ _ _ _ _ Hl).
  apply Hsw.
Qed.

Lemma malformed_version_fatal_witness :
  let j := sample_jvm "1.8" "/jvm/legacy" "legacy" in
  let fs : FS := fun p => match p with
                          | [".java-version"; "proj"] => TextFile "1.8"
                          | _ => Missing
                          end in
  get_version_from_input "1.8" = Some (mkV 8 None) /\
  Forall (wf_nonmatch (mkV 8 None)) [] /\
  major_version_of j
  = inr "Version number 1.8 of jvm /jvm/legacy should contain at least two periods when 1-prefixed!" /\
  find_version_string_from_file fs ["proj"] true w0 = (Cont "1.8", w0) /\
  run_auto fs ["proj"] [j] true None w0
  = (Halt 1, eprinted w0 "Version number 1.8 of jvm /jvm/legacy should contain at least two periods when 1-prefixed!").
Proof.
  intros j fs.
  assert (Hl : find_version_string_from_file fs ["proj"] true w0 = (Cont "1.8", w0))
    by reflexivity.
  split; [reflexivity|]. split; [constructor|]. split; [reflexivity|].
  split; [exact Hl|].
  exact (proj2 (proj2 (proj2 (malformed_version_fatal "1.8" [j] true None w0
           (mkV 8 None) [] j [] _ eq_refl eq_refl (Forall_nil _) eq_refl)))
           fs ["proj"] w0 Hl).
Defined.

(** C10.  Version tokens are parsed as [u16]: a decimal token denoting an
    integer above 65535 is rejected, so normalization of a runtime version
    whose major token is that integer fails with MalformedVersion and a
    specifier whose version token is that integer is unparseable. *)
Theorem u16_overflow_rejected (tok : string) :
  all_digits tok = true -> u16_max < digits_value tok ->
  parse_u16 tok = None /\
  (forall j t, version j = tok ++ "." ++ t ->
     exists msg, major_version_of j = inr msg) /\
  (forall j p, version j = "1." ++ tok ++ "." ++ p ->
     exists msg, major_version_of j = inr msg) /\
  (forall spec t, skip_while alpha_or_dash spec = tok ++ "." ++ t ->
     get_version_from_input spec = None) /\
  (forall spec, skip_while alpha_or_dash spec = "1." ++ tok ->
     get_version_from_input spec = None) /\
  get_version_from_input tok = None.
Proof.
  intros Hd Hv.
  assert (Hp : parse_u16 tok = None) by (apply parse_u16_overflow; assumption).
  assert (H1 : tok <> "1").
  { intros ->. vm_compute in Hv. discriminate Hv. }
  split; [exact Hp|]. split; [|split; [|split; [|split]]].
  - intros j t Hj. rewrite (major_version_of_plain j tok t Hj Hd H1), Hp. eauto.
  - intros j p Hj. rewrite (major_version_of_legacy j tok p Hj Hd), Hp. eauto.
  - intros spec t Hs. unfold get_version_from_input. rewrite Hs.
    replace ("." ++ t) with (String "." t) by reflexivity.
    rewrite (split_once_app "." tok t (all_digits_no_dot tok Hd)).
    apply String.eqb_neq in H1. rewrite H1, Hp. reflexivity.
  - intros spec Hs. unfold get_version_from_input. rewrite Hs.
    replace ("1." ++ tok) with ("1" ++ String "." tok) by reflexivity.
    rewrite (split_once_app "." "1" tok eq_refl). simpl String.eqb.
    rewrite Hp. reflexivity.
  - unfold get_version_from_input. rewrite (all_digits_skip tok Hd).
    rewrite (all_digits_no_dot tok Hd), Hp. reflexivity.
Qed.

Lemma u16_overflow_rejected_witness :
  all_digits "70000" = true /\ u16_max < digits_value "70000" /\
  get_version_from_input "70000" = None.
Proof.
  assert (Hd : all_digits "70000" = true) by reflexivity.
  assert (Hv : u16_max < digits_value "70000") by (vm_compute; reflexivity).
  split; [exact Hd|]. split; [exact Hv|].
  exact (proj2 (proj2 (proj2 (proj2 (proj2 (u16_overflow_rejected "70000" Hd Hv)))))).
Defined.

(** ** Quiet mode (C2) *)

Definition proj_dir : Dir := ["proj"].

(** A project directory whose primary config file holds [content]. *)
Definition fs_primary (content : string) : FS :=
  fun p => match p with
           | [".java-version"; "proj"] => TextFile content
           | _ => Missing
           end.

Definition fs_empty : FS := fun _ => Missing.

(** C2 (code bug).  On [auto --quiet], a missing config file and an
    unparseable specifier end silently with status 0, but a specifier that
    no installed runtime matches reaches the unconditional [panic!] of
    [switch_to]: status 101 and a message on stderr. *)
Theorem auto_quiet_no_match_panics :
  let jvms := [sample_jvm "21.0.1" "/jvm/jdk21" "net.java.jdk21"] in
  run_auto fs_empty proj_dir jvms true None w0 = (Halt 0, w0) /\
  run_auto (fs_primary "abc") proj_dir jvms true None w0 = (Halt 0, w0) /\
  run_auto (fs_primary "17") proj_dir jvms true None w0
  = (Halt 101, eprinted w0 (no_match_msg (mkV 17 None))) /\
  run_explicit "17" jvms None w0
  = (Halt 101, eprinted w0 (no_match_msg (mkV 17 None))).
Proof. repeat split; reflexivity. Qed.

(** ** Cascading lookup (C7, C8) *)

Definition text_lines (ls : list string) : string :=
  String.concat "" (map (fun l => l ++ String nl EmptyString) ls).

Definition fs_tool_versions (content : string) : FS :=
  fun p => match p with
           | [".tool-versions"; "proj"] => TextFile content
           | _ => Missing
           end.

(** C7 (code bug).  The secondary file is searched for the first trimmed
    line that merely starts with "java": "ruby 3.2 / java 21" yields "21",
    but "javascript 5 / java 21" yields "javascript 5", which the [auto]
    path then hands to the specifier parser. *)
Theorem tool_versions_java_prefix :
  find_version_string_from_tool_versions
    (fs_tool_versions (text_lines ["ruby 3.2"; "java 21"]))
    [".tool-versions"; "proj"] = Some "21" /\
  find_version_string_from_tool_versions
    (fs_tool_versions (text_lines ["javascript 5"; "java 21"]))
    [".tool-versions"; "proj"] = Some "javascript 5" /\
  find_version_string_from_file
    (fs_tool_versions (text_lines ["javascript 5"; "java 21"])) proj_dir false w0
  = (Cont "javascript 5", w0).
Proof. repeat split; reflexivity. Qed.











(** ** Independence of the selection from quiet mode (C9) *)

Lemma switch_to_stdout spec jvms q e w :
  stdout (snd (switch_to spec jvms q e w)) =
  match get_version_from_input spec with
  | Some v =>
      match resolve v jvms w with
      | (Cont j, w') => (stdout w' ++ [home_path j])%list
      | (Halt _, w') => stdout w'
      end
  | None => stdout w
  end.
Proof.
  unfold switch_to. destruct (get_version_from_input spec) as [v|].
  - unfold bind at 1. destruct (resolve v jvms w) as [[j|c] w']; [|reflexivity].
    unfold bind, println. simpl.
    destruct (_ || _); reflexivity.
  - destruct q; reflexivity.
Qed.

(** C9.  Two runs that differ only in the quiet flag or in the previous
    [JAVA_HOME] write the same standard output, on the resolving path and
    on the [auto] path; what they print is the install path of the runtime
    the (flag-independent) resolver selects. *)
Theorem quiet_independent_selection spec jvms q1 q2 e1 e2 w :
  stdout (snd (switch_to spec jvms q1 e1 w))
  = stdout (snd (switch_to spec jvms q2 e2 w)) /\
  (forall fs here,
     stdout (snd (run_auto fs here jvms q1 e1 w))
     = stdout (snd (run_auto fs here jvms q2 e2 w))) /\
  (forall v j w', get_version_from_input spec = Some v ->
     resolve v jvms w = (Cont j, w') ->
     stdout (snd (switch_to spec jvms q1 e1 w)) = (stdout w' ++ [home_path j])%list).
Proof.
  split; [|split].
  - rewrite !switch_to_stdout. reflexivity.
  - intros fs here. unfold run_auto, bind.
    rewrite !find_version_string_from_file_locate.
    destruct (first_decided (map (level_outcome fs) (ancestors here)))
      as [s|m|].
    + rewrite !switch_to_stdout. reflexivity.
    + reflexivity.
    + destruct q1, q2; reflexivity.
  - intros v j w' Hv Hr. rewrite switch_to_stdout, Hv, Hr. reflexivity.
Qed.

Lemma quiet_independent_selection_witness :
  let jvms := [sample_jvm "17.0.9" "/jvm/jdk17" "net.java.jdk17"] in
  get_version_from_input "17" = Some (mkV 17 None) /\
  resolve (mkV 17 None) jvms w0 = (Cont (sample_jvm "17.0.9" "/jvm/jdk17" "net.java.jdk17"), w0) /\
  stdout (snd (switch_to "17" jvms true (Some "/jvm/jdk17") w0)) = ["/jvm/jdk17"].
Proof.
  intros jvms.
  assert (Hv : get_version_from_input "17" = Some (mkV 17 None)) by reflexivity.
  assert (Hr : resolve (mkV 17 None) jvms w0
               = (Cont (sample_jvm "17.0.9" "/jvm/jdk17" "net.java.jdk17"), w0))
    by reflexivity.
  split; [exact Hv|]. split; [exact Hr|].
  exact (proj2 (proj2 (quiet_independent_selection "17" jvms true false
           (Some "/jvm/jdk17") None w0)) _ _ _ Hv Hr).
Defined.

(** ** Further properties of the code *)

(** *** Helper lemmas *)

Lemma parse_digits_some s acc n :
  0 <= acc <= u16_max -> parse_digits acc s = Some n ->
  all_digits s = true /\ n = digits_value_from acc s /\ n <= u16_max.
Proof.
  revert acc; induction s as [|c t IH]; intros acc Hacc H; simpl in *.
  - injection H as <-. split; [reflexivity | split; [reflexivity | tauto]].
  - destruct (is_digit c) eqn:Hc; [|discriminate].
    pose proof (is_digit_bounds c Hc).
    destruct (Z.ltb_spec u16_max (acc * 10)); [discriminate|].
    destruct (Z.ltb_spec u16_max (acc * 10 + digit_value c)); [discriminate|].
    destruct (IH (acc * 10 + digit_value c) ltac:(lia) H) as [Ht [Hn Hb]]. auto.
Qed.

Lemma parse_u16_shape s n :
  parse_u16 s = Some n <->
  exists d, (s = d \/ s = String "+" d) /\ all_digits d = true /\
            d <> EmptyString /\ n = digits_value d /\ 0 <= n <= u16_max.
Proof.
  split.
  - destruct s as [|c t]; [discriminate|]. unfold parse_u16.
    destruct (Ascii.eqb_spec c "+"%char) as [->|Hc].
    + destruct t as [|c' t']; [discriminate|]. intros H.
      destruct (parse_digits_some _ 0 n ltac:(unfold u16_max; lia) H) as [Hd [Hn Hb]].
      pose proof (digits_value_from_ge (String c' t') 0 ltac:(lia) Hd).
      exists (String c' t'). unfold digits_value. repeat split; auto; try lia; discriminate.
    + intros H.
      destruct (parse_digits_some _ 0 n ltac:(unfold u16_max; lia) H) as [Hd [Hn Hb]].
      pose proof (digits_value_from_ge (String c t) 0 ltac:(lia) Hd).
      exists (String c t). unfold digits_value. repeat split; auto; try lia; discriminate.
  - intros [d [[-> | ->] [Hd [Hne [-> Hb]]]]].
    + rewrite parse_u16_digits by assumption.
      assert (Hl : (digits_value d <=? u16_max) = true) by (apply Z.leb_le; lia).
      rewrite Hl. reflexivity.
    + unfold parse_u16. rewrite Ascii.eqb_refl.
      destruct d as [|c t]; [congruence|].
      rewrite parse_digits_spec by (assumption || (unfold u16_max; lia)).
      fold (digits_value (String c t)).
      assert (Hl : (digits_value (String c t) <=? u16_max) = true)
        by (apply Z.leb_le; lia).
      rewrite Hl. reflexivity.
Qed.

Lemma split_once_cons_other c x t :
  Ascii.eqb x c = false ->
  split_once c (String x t) =
  match split_once c t with Some (h, r) => Some (String x h, r) | None => None end.
Proof. intros H. simpl. rewrite H. reflexivity. Qed.

Lemma parse_u16_some_no_dot s n :
  parse_u16 s = Some n -> split_once "." s = None.
Proof.
  intros H. apply parse_u16_shape in H as [d [[-> | ->] [Hd _]]].
  - apply all_digits_no_dot, Hd.
  - rewrite split_once_cons_other by reflexivity.
    rewrite (all_digits_no_dot d Hd). reflexivity.
Qed.

Lemma alphabetic_not_number c :
  is_alphabetic c = true -> is_digit c = false /\ Ascii.eqb c "+"%char = false.
Proof.
  intros H. split.
  - destruct (is_digit c) eqn:Hd; [|reflexivity].
    rewrite (is_digit_not_alphabetic c Hd) in H. discriminate.
  - destruct (Ascii.eqb_spec c "+"%char) as [->|]; [discriminate | reflexivity].
Qed.

Lemma find_jvm_outcome v jvms w r w' :
  find_jvm v jvms w = (r, w') ->
  match r with
  | Cont (Some j) => w' = w /\ In j jvms /\ runtime_matches v j
  | Cont None => w' = w /\ Forall (wf_nonmatch v) jvms
  | Halt c => c = 1 /\ exists j msg, In j jvms /\ major_version_of j = inr msg /\
                                    w' = eprinted w msg
  end.
Proof.
  revert r w'; induction jvms as [|j js IH]; intros r w' H.
  - injection H as <- <-. auto.
  - destruct (major_version_of j) as [n|msg] eqn:Hm.
    + rewrite (find_jvm_cons_ok v j js n w Hm) in H.
      destruct ((n =? number v) && distro_matches v j) eqn:Hb.
      * injection H as <- <-. apply andb_prop in Hb as [Hn Hd].
        apply Z.eqb_eq in Hn. subst n.
        split; [reflexivity|]. split; [left; reflexivity|].
        apply runtime_matches_iff. auto.
      * specialize (IH r w' H). destruct r as [[j'|]|c].
        -- destruct IH as [? [? ?]]. split; [|split]; auto. right; assumption.
        -- destruct IH as [? ?]. split; [assumption|]. constructor; [|assumption].
           split; [eauto|]. intros Hr. apply runtime_matches_iff in Hr as [Hr1 Hr2].
           rewrite Hm in Hr1. injection Hr1 as ->. rewrite Z.eqb_refl, Hr2 in Hb.
           discriminate.
        -- destruct IH as [? [j' [msg [? [? ?]]]]]. split; [assumption|].
           exists j', msg. split; [right|]; auto.
    + rewrite (find_jvm_cons_err v j js msg w Hm) in H. injection H as <- <-.
      split; [reflexivity|]. exists j, msg. split; [left; reflexivity|]. auto.
Qed.

Lemma find_jvm_decided_prefix v l1 l2 w r w' :
  find_jvm v l1 w = (r, w') -> r <> Cont None ->
  find_jvm v (l1 ++ l2)%list w = (r, w').
Proof.
  revert r w'; induction l1 as [|j js IH]; intros r w' H Hr.
  - injection H as <- <-. congruence.
  - simpl app. destruct (major_version_of j) as [n|msg] eqn:Hm.
    + rewrite (find_jvm_cons_ok v j js n w Hm) in H.
      rewrite (find_jvm_cons_ok v j (js ++ l2) n w Hm).
      destruct ((n =? number v) && distro_matches v j); [exact H|].
      apply IH; assumption.
    + rewrite (find_jvm_cons_err v j js msg w Hm) in H.
      rewrite (find_jvm_cons_err v j (js ++ l2) msg w Hm). exact H.
Qed.

Lemma find_none_forallb {A} (f : A -> bool) l :
  forallb (fun a => negb (f a)) l = true -> find f l = None.
Proof.
  induction l as [|a l IH]; simpl; [reflexivity|].
  intros H. apply andb_prop in H as [Ha Hl].
  destruct (f a); [discriminate | exact (IH Hl)].
Qed.

(** *** [parse::<u16>] *)

(** [parse::<u16>] accepts exactly an optional '+' followed by a non-empty
    run of decimal digits (leading zeros allowed) whose value is at most
    65535, and returns that value. *)
Theorem parse_u16_accepts_exactly s n :
  parse_u16 s = Some n <->
  exists d, (s = d \/ s = String "+" d) /\ all_digits d = true /\
            d <> EmptyString /\ n = digits_value d /\ 0 <= n <= u16_max.
Proof. apply parse_u16_shape. Qed.

Lemma parse_u16_accepts_exactly_witness :
  parse_u16 "+0017" = Some 17.
Proof.
  apply (proj2 (parse_u16_accepts_exactly "+0017" 17)).
  exists "0017". split; [right; reflexivity|].
  split; [reflexivity|]. split; [discriminate|].
  split; [reflexivity | vm_compute; split; discriminate].
Defined.

(** A specifier with a distribution prefix never parses when its stripped
    remainder has no period: the code then parses the whole specifier,
    which starts with a letter. *)
Theorem distro_without_period_unparsed spec d :
  get_distro spec = Some d ->
  split_once "." (skip_while alpha_or_dash spec) = None ->
  get_version_from_input spec = None.
Proof.
  intros Hd Hs. unfold get_version_from_input. rewrite Hs.
  destruct spec as [|c t]; [discriminate|].
  unfold get_distro in Hd. simpl in Hd.
  destruct (is_alphabetic c) eqn:Hc; [|discriminate].
  destruct (alphabetic_not_number c Hc) as [Hdig Hplus].
  unfold parse_u16. rewrite Hplus. simpl. rewrite Hdig. reflexivity.
Qed.

Lemma distro_without_period_unparsed_witness :
  get_distro "corretto-21" = Some "corretto" /\
  split_once "." (skip_while alpha_or_dash "corretto-21") = None /\
  get_version_from_input "corretto-21" = None.
Proof.
  split; [reflexivity|]. split; [reflexivity|].
  exact (distro_without_period_unparsed "corretto-21" "corretto" eq_refl eq_refl).
Defined.

(** A legacy specifier "1.<rest>" whose rest contains another period (such
    as "1.8.0") is rejected: the whole rest must be a number. *)
Theorem legacy_spec_extra_period_rejected spec t :
  skip_while alpha_or_dash spec = "1." ++ t ->
  split_once "." t <> None ->
  get_version_from_input spec = None.
Proof.
  intros Hs Ht. unfold get_version_from_input. rewrite Hs.
  replace ("1." ++ t) with ("1" ++ String "." t) by reflexivity.
  rewrite (split_once_app "." "1" t eq_refl). simpl String.eqb.
  destruct (parse_u16 t) eqn:Hp; [|reflexivity].
  exfalso. exact (Ht (parse_u16_some_no_dot t z Hp)).
Qed.

Lemma legacy_spec_extra_period_rejected_witness :
  skip_while alpha_or_dash "1.8.0" = "1." ++ "8.0" /\
  split_once "." "8.0" <> None /\
  get_version_from_input "1.8.0" = None.
Proof.
  split; [reflexivity|]. split; [discriminate|].
  exact (legacy_spec_extra_period_rejected "1.8.0" "8.0" eq_refl ltac:(discriminate)).
Defined.

(** *** Registry scan and [switch_to] *)

(** What [find] over the registry returns: a runtime of the list that
    matches the query, with no output; [None] only when every runtime is
    well-formed and none matches; otherwise status 1 after the diagnostic
    of a malformed runtime of the list. *)
Theorem find_jvm_result_sound v jvms w r w' :
  find_jvm v jvms w = (r, w') ->
  match r with
  | Cont (Some j) => w' = w /\ In j jvms /\ runtime_matches v j
  | Cont None => w' = w /\ Forall (wf_nonmatch v) jvms
  | Halt c => c = 1 /\ exists j msg, In j jvms /\ major_version_of j = inr msg /\
                                    w' = eprinted w msg
  end.
Proof. apply find_jvm_outcome. Qed.

Lemma find_jvm_result_sound_witness :
  let j17 := sample_jvm "17.0.9" "/jvm/jdk17" "net.java.jdk17" in
  find_jvm (mkV 17 None) [j17] w0 = (Cont (Some j17), w0) /\
  In j17 [j17] /\ runtime_matches (mkV 17 None) j17.
Proof.
  intros j17.
  assert (H : find_jvm (mkV 17 None) [j17] w0 = (Cont (Some j17), w0))
    by reflexivity.
  split; [exact H|].
  exact (proj2 (find_jvm_result_sound (mkV 17 None) [j17] w0 _ _ H)).
Defined.

(** Once a prefix of the registry decides the scan (a match, or a fatal
    malformed version), the entries after it are never examined: appending
    any runtimes, malformed ones included, changes nothing. *)
Theorem find_jvm_ignores_suffix v l1 l2 w r w' :
  find_jvm v l1 w = (r, w') -> r <> Cont None ->
  find_jvm v (l1 ++ l2)%list w = (r, w').
Proof. apply find_jvm_decided_prefix. Qed.

Lemma find_jvm_ignores_suffix_witness :
  let j17 := sample_jvm "17.0.9" "/jvm/jdk17" "net.java.jdk17" in
  let bad := sample_jvm "garbage" "/jvm/bad" "bad" in
  find_jvm (mkV 17 None) [j17; bad] w0 = (Cont (Some j17), w0).
Proof.
  intros j17 bad.
  exact (find_jvm_ignores_suffix (mkV 17 None) [j17] [bad] w0 _ _ eq_refl
           ltac:(discriminate)).
Defined.

(** On a successful resolution [switch_to] ends normally, prints the
    install path on stdout, and prints the announcement on stderr unless
    the quiet flag is set and the previous [JAVA_HOME] is exactly that
    install path. *)
Theorem switch_to_success_output spec jvms quiet old w v j w' :
  get_version_from_input spec = Some v ->
  resolve v jvms w = (Cont j, w') ->
  switch_to spec jvms quiet old w =
  (Cont tt,
   mkWorld (stdout w' ++ [home_path j])%list
     (if quiet && match old with
                  | Some o => String.eqb o (home_path j)
                  | None => false
                  end
      then stderr w'
      else (stderr w' ++ [("Activating Java " ++ name j)%string])%list)).
Proof.
  intros Hv Hr. unfold switch_to. rewrite Hv, (bind_cont _ _ _ _ _ Hr).
  unfold bind, println. simpl.
  destruct quiet; simpl; [|reflexivity].
  destruct old as [o|]; simpl; [|reflexivity].
  destruct (String.eqb o (home_path j)); simpl; [|reflexivity].
  unfold ret. destruct w'. reflexivity.
Qed.

Lemma switch_to_success_output_witness :
  let j17 := sample_jvm "17.0.9" "/jvm/jdk17" "net.java.jdk17" in
  switch_to "17" [j17] true (Some "/jvm/jdk17") w0
  = (Cont tt, mkWorld ["/jvm/jdk17"] []).
Proof.
  intros j17.
  exact (switch_to_success_output "17" [j17] true (Some "/jvm/jdk17") w0
           (mkV 17 None) j17 w0 eq_refl eq_refl).
Defined.

(** *** Cascading lookup and normalizer edges *)

(** A primary file whose content is only whitespace still ends the search
    in its directory, with the empty specifier; the [auto] run then fails
    as unparseable: silently under the quiet flag, with a panic
    otherwise. *)
Theorem blank_primary_file_stops_lookup fs d c jvms q old w :
  fs (".java-version" :: d) = TextFile c -> trim c = EmptyString ->
  find_version_string_from_file fs d q w = (Cont EmptyString, w) /\
  run_auto fs d jvms q old w =
  if q then (Halt 0, w)
  else (Halt 101, eprinted w "Did not understand version spec ").
Proof.
  intros Hc Ht.
  assert (Hl : find_version_string_from_file fs d q w = (Cont EmptyString, w)).
  { rewrite find_version_string_from_file_step. unfold level_outcome.
    rewrite Hc, Ht. reflexivity. }
  split; [exact Hl|]. unfold run_auto. rewrite (bind_cont _ _ _ _ _ Hl).
  destruct q; reflexivity.
Qed.

Lemma blank_primary_file_stops_lookup_witness :
  let fs : FS := fun p => match p with
                          | [".java-version"; "proj"] => TextFile ("  " ++ String nl EmptyString)
                          | [".tool-versions"; "proj"] => TextFile "java 17"
                          | _ => Missing
                          end in
  run_auto fs proj_dir [] true None w0 = (Halt 0, w0).
Proof.
  intros fs.
  exact (proj2 (blank_primary_file_stops_lookup fs proj_dir _ [] true None w0
           eq_refl eq_refl)).
Defined.

(** A secondary file in which no trimmed line starts with "java" does not
    end the search: the lookup goes on in the parent directory, and at the
    root it fails with NoConfigFound. *)
Theorem tool_versions_without_java_continues fs x p c q w :
  (fs (".java-version" :: x :: p) = Missing ->
   fs (".tool-versions" :: x :: p) = TextFile c ->
   forallb (fun l => negb (starts_with l "java")) (map trim (lines c)) = true ->
   find_version_string_from_file fs (x :: p) q w =
   find_version_string_from_file fs p q w) /\
  (fs [".java-version"] = Missing ->
   fs [".tool-versions"] = TextFile c ->
   forallb (fun l => negb (starts_with l "java")) (map trim (lines c)) = true ->
   find_version_string_from_file fs [] q w = exit_with_err no_config_msg q w).
Proof.
  split; intros Hp Hs Hn; rewrite find_version_string_from_file_step;
    unfold level_outcome, tool_versions_decl; rewrite Hp, Hs;
    rewrite (find_none_forallb _ _ Hn); reflexivity.
Qed.

Lemma tool_versions_without_java_continues_witness :
  let c := "ruby 3.2" ++ String nl "nodejs 20" in
  let fs : FS := fun p => match p with
                          | [".tool-versions"; "proj"] => TextFile c
                          | [".java-version"] => TextFile "11"
                          | _ => Missing
                          end in
  find_version_string_from_file fs proj_dir true w0 = (Cont "11", w0).
Proof.
  intros c fs. unfold proj_dir.
  rewrite (proj1 (tool_versions_without_java_continues fs "proj" [] c true w0)
             eq_refl eq_refl eq_refl).
  reflexivity.
Defined.

(** A runtime version "1.<m>" with a single period is malformed (the
    legacy scheme needs a second period), unlike the specifier "1.<m>":
    the process ends with status 1 and the diagnostic on stderr. *)
Theorem legacy_runtime_one_period_malformed j m :
  version j = "1." ++ m -> split_once "." m = None ->
  let msg := "Version number " ++ version j ++ " of jvm " ++ home_path j
             ++ " should contain at least two periods when 1-prefixed!" in
  major_version_of j = inr msg /\
  forall w, major_version j w = (Halt 1, eprinted w msg).
Proof.
  intros Hv Hm msg.
  assert (H : major_version_of j = inr msg).
  { unfold major_version_of. rewrite Hv.
    replace ("1." ++ m) with ("1" ++ String "." m) by reflexivity.
    rewrite (split_once_app "." "1" m eq_refl). simpl String.eqb.
    rewrite Hm. unfold msg. rewrite Hv. reflexivity. }
  split; [exact H|]. intros w. unfold major_version. rewrite H. reflexivity.
Qed.

Lemma legacy_runtime_one_period_malformed_witness :
  let j := sample_jvm "1.8" "/jvm/old" "old" in
  major_version_of j
  = inr "Version number 1.8 of jvm /jvm/old should contain at least two periods when 1-prefixed!".
Proof.
  intros j.
  exact (proj1 (legacy_runtime_one_period_malformed j "8" eq_refl eq_refl)).
Defined.
